(** * The cgo callback shim of sdrplay-go ([api/api_cgo.c])

    The file holds three trampolines, [cgoStreamACallback],
    [cgoStreamBCallback] and [cgoEventCallback], that the SDRplay driver
    calls and that forward to the functions exported by the Go side, and
    [wrapper_api_Init], which registers the trampolines with the driver.

    The C functions are embedded as programs of a small free monad over
    the effects a C function of this file can perform: memory accesses
    through data pointers, automatic storage of a callback table, calls
    of the exported Go functions and the call of [sdrplay_api_Init].
    Programs are run on a machine state that records every effect in a
    trace. *)

From Stdlib Require Import ZArith Lia.
From stdpp Require Import base option list gmap.

Local Open Scope Z_scope.

(** ** C data model and integer conversions *)

(** cgo targets have 32-bit or 64-bit addresses; [unsigned int] and
    [int] are 32 bits wide on all of them. *)
Inductive data_model : Set := ILP32 | LP64.
Existing Class data_model.

Definition ptr_bits (dm : data_model) : Z :=
  match dm with ILP32 => 32 | LP64 => 64 end.

Section Conversions.
Context {dm : data_model}.

(** Values of type [short *], [sdrplay_api_StreamCbParamsT *],
    [sdrplay_api_EventParamsT *], [void *]: addresses. *)
Definition is_ptr (p : Z) : Prop := 0 <= p < 2 ^ ptr_bits dm.

(** Values of type [GoUintptr]. *)
Definition is_GoUintptr (h : Z) : Prop := 0 <= h < 2 ^ ptr_bits dm.

(** Values of type [unsigned int] and [GoUint32]. *)
Definition is_uint (n : Z) : Prop := 0 <= n < 2 ^ 32.

(** Values of the enumerations [sdrplay_api_EventT] and
    [sdrplay_api_TunerSelectT], and of [GoInt32]. *)
Definition is_int32 (e : Z) : Prop := - 2 ^ 31 <= e < 2 ^ 31.

(** [(GoUintptr)p]: conversion of a pointer to the unsigned integer of
    the width of an address. *)
Definition GoUintptr_of_ptr (p : Z) : Z := p mod 2 ^ ptr_bits dm.

(** [(GoUint32)n]: conversion to a 32-bit unsigned integer. *)
Definition GoUint32_of_uint (n : Z) : Z := n mod 2 ^ 32.

(** [(GoInt32)e]: conversion to a 32-bit signed integer. *)
Definition GoInt32_of_enum (e : Z) : Z := (e + 2 ^ 31) mod 2 ^ 32 - 2 ^ 31.

(** Modelled from the spec: [HANDLE] is declared in [sdrplay_api.h],
    which is not part of the sources; the spec has the device handle
    "reinterpreted as the user-context value", an address.
    [(void * )dev]. *)
Definition ptr_of_HANDLE (dev : Z) : Z := dev mod 2 ^ ptr_bits dm.

(** Modelled from the spec: the Go receivers are not part of the
    sources; the spec has handles "decode back to the original buffer
    addresses". The conversion of a handle back to a pointer. *)
Definition ptr_of_GoUintptr (h : Z) : Z := h mod 2 ^ ptr_bits dm.
End Conversions.

(** ** Calls of the functions exported by Go ([_cgo_export.h]) *)

Inductive host_call : Set :=
| streamACallback (xi xq params numSamples reset cbContext : Z)
| streamBCallback (xi xq params numSamples reset cbContext : Z)
| eventCallback (eventId tuner params cbContext : Z).

Inductive receiver : Set := Receiver_streamA | Receiver_streamB | Receiver_event.

Definition receiver_of (c : host_call) : receiver :=
  match c with
  | streamACallback _ _ _ _ _ _ => Receiver_streamA
  | streamBCallback _ _ _ _ _ _ => Receiver_streamB
  | eventCallback _ _ _ _ => Receiver_event
  end.

(** ** The callback table [sdrplay_api_CallbackFnsT] *)

(** Function pointers of type [sdrplay_api_StreamCallback_t] and
    [sdrplay_api_EventCallback_t] to the functions of this file. *)
Inductive stream_fn : Set := Fn_cgoStreamACallback | Fn_cgoStreamBCallback.
Inductive event_fn : Set := Fn_cgoEventCallback.

(** A slot that was never assigned holds an indeterminate value: [None]. *)
Record sdrplay_api_CallbackFnsT : Set := {
  StreamACbFn : option stream_fn;
  StreamBCbFn : option stream_fn;
  EventCbFn : option event_fn
}.

Definition uninitialised : sdrplay_api_CallbackFnsT :=
  {| StreamACbFn := None; StreamBCbFn := None; EventCbFn := None |}.

(** An assignment [t.field = f]. *)
Inductive field_assign : Set :=
| Set_StreamACbFn (f : stream_fn)
| Set_StreamBCbFn (f : stream_fn)
| Set_EventCbFn (f : event_fn).

Definition assign (fa : field_assign) (t : sdrplay_api_CallbackFnsT)
  : sdrplay_api_CallbackFnsT :=
  match fa with
  | Set_StreamACbFn f =>
      {| StreamACbFn := Some f; StreamBCbFn := StreamBCbFn t; EventCbFn := EventCbFn t |}
  | Set_StreamBCbFn f =>
      {| StreamACbFn := StreamACbFn t; StreamBCbFn := Some f; EventCbFn := EventCbFn t |}
  | Set_EventCbFn f =>
      {| StreamACbFn := StreamACbFn t; StreamBCbFn := StreamBCbFn t; EventCbFn := Some f |}
  end.

(** ** Effects and programs *)

(** What a C function of this file can do to its environment. A table
    in automatic storage is addressed by its index in the stack. *)
Inductive effect : Type -> Type :=
| Load (a : Z) : effect Z
| Store (a v : Z) : effect unit
| Auto_alloc : effect nat
| Auto_assign (t : nat) (fa : field_assign) : effect unit
| Auto_free (t : nat) : effect unit
| Host (c : host_call) : effect unit
| sdrplay_api_Init (dev : Z) (callbackFns : nat) (cbContext : Z) : effect Z.

Inductive prog (R : Type) : Type :=
| Ret (r : R)
| Vis {X : Type} (e : effect X) (k : X -> prog R).
Arguments Ret {R} r.
Arguments Vis {R X} e k.

Fixpoint bind {A B : Type} (p : prog A) (f : A -> prog B) : prog B :=
  match p with
  | Ret a => f a
  | Vis e k => Vis e (fun x => bind (k x) f)
  end.

#[export] Instance prog_ret : MRet prog := @Ret.
#[export] Instance prog_bind : MBind prog := fun A B f p => bind p f.

Definition perform {X : Type} (e : effect X) : prog X := Vis e Ret.

(** ** The functions of [api_cgo.c] *)

Section Source.
Context {dm : data_model}.

Definition cgoStreamACallback
    (xi xq params : Z) (numSamples reset : Z) (cbContext : Z) : prog unit :=
  perform (Host (streamACallback
    (GoUintptr_of_ptr xi) (GoUintptr_of_ptr xq) (GoUintptr_of_ptr params)
    (GoUint32_of_uint numSamples) (GoUint32_of_uint reset)
    (GoUintptr_of_ptr cbContext))).

Definition cgoStreamBCallback
    (xi xq params : Z) (numSamples reset : Z) (cbContext : Z) : prog unit :=
  perform (Host (streamBCallback
    (GoUintptr_of_ptr xi) (GoUintptr_of_ptr xq) (GoUintptr_of_ptr params)
    (GoUint32_of_uint numSamples) (GoUint32_of_uint reset)
    (GoUintptr_of_ptr cbContext))).

Definition cgoEventCallback
    (eventId tuner : Z) (params cbContext : Z) : prog unit :=
  perform (Host (eventCallback
    (GoInt32_of_enum eventId) (GoInt32_of_enum tuner)
    (GoUintptr_of_ptr params) (GoUintptr_of_ptr cbContext))).

(** [cbFuncs] has automatic storage duration: it is allocated on entry
    and released when the function returns. *)
Definition wrapper_api_Init (dev : Z) : prog Z :=
  cbFuncs ← perform Auto_alloc;
  perform (Auto_assign cbFuncs (Set_StreamACbFn Fn_cgoStreamACallback));;
  perform (Auto_assign cbFuncs (Set_StreamBCbFn Fn_cgoStreamBCallback));;
  perform (Auto_assign cbFuncs (Set_EventCbFn Fn_cgoEventCallback));;
  err ← perform (sdrplay_api_Init dev cbFuncs (ptr_of_HANDLE dev));
  perform (Auto_free cbFuncs);;
  mret err.
End Source.

(** ** Machine state and the meaning of effects *)

(** Every effect performed is recorded, with what it saw. *)
Inductive event : Set :=
| Ev_load (a v : Z)
| Ev_store (a v : Z)
| Ev_alloc (t : nat)
| Ev_assign (t : nat) (fa : field_assign)
| Ev_free (t : nat)
| Ev_host (c : host_call)
| Ev_init (dev : Z) (t : nat) (tbl : option sdrplay_api_CallbackFnsT)
          (cbContext : Z) (err : Z).

(** [heap]: the memory behind data pointers (sample buffers, parameter
    structures), owned by the driver. [stack]: the callback tables in
    automatic storage, innermost last. *)
Record machine : Type := {
  heap : gmap Z Z;
  stack : list sdrplay_api_CallbackFnsT;
  trace : list event
}.

Definition set_heap (h : gmap Z Z) (m : machine) : machine :=
  {| heap := h; stack := stack m; trace := trace m |}.
Definition set_stack (s : list sdrplay_api_CallbackFnsT) (m : machine) : machine :=
  {| heap := heap m; stack := s; trace := trace m |}.
Definition log (ev : event) (m : machine) : machine :=
  {| heap := heap m; stack := stack m; trace := trace m ++ [ev] |}.

(** The two collaborators of the shim. A Go receiver may read and write
    the driver's memory. The driver's [sdrplay_api_Init] sees the device,
    the table behind the pointer it is given and the context, and
    answers with a status code. *)
Record environment : Type := {
  host_receiver : host_call -> gmap Z Z -> gmap Z Z;
  driver_init : Z -> option sdrplay_api_CallbackFnsT -> Z -> gmap Z Z -> Z * gmap Z Z
}.

Definition handle (env : environment) {X : Type} (e : effect X) (m : machine)
  : X * machine :=
  match e in effect X return X * machine with
  | Load a =>
      let v := default 0 (heap m !! a) in (v, log (Ev_load a v) m)
  | Store a v =>
      (tt, log (Ev_store a v) (set_heap (<[a:=v]> (heap m)) m))
  | Auto_alloc =>
      let t := length (stack m) in
      (t, log (Ev_alloc t) (set_stack (stack m ++ [uninitialised]) m))
  | Auto_assign t fa =>
      (tt, log (Ev_assign t fa) (set_stack (alter (assign fa) t (stack m)) m))
  | Auto_free t =>
      (tt, log (Ev_free t) (set_stack (take t (stack m)) m))
  | Host c =>
      (tt, log (Ev_host c) (set_heap (host_receiver env c (heap m)) m))
  | sdrplay_api_Init dev t cbContext =>
      let tbl := stack m !! t in
      let r := driver_init env dev tbl cbContext (heap m) in
      (r.1, log (Ev_init dev t tbl cbContext r.1) (set_heap r.2 m))
  end.

Fixpoint run (env : environment) {R : Type} (p : prog R) (m : machine)
  : R * machine :=
  match p with
  | Ret r => (r, m)
  | Vis e k => let xm := handle env e m in run env (k xm.1) xm.2
  end.

(** The events a run added to the trace. *)
Definition new_events (m m' : machine) : list event :=
  drop (length (trace m)) (trace m').

(** Whether a program can reach a [Load] or a [Store]. *)
Fixpoint memory_free {R : Type} (p : prog R) : Prop :=
  match p with
  | Ret _ => True
  | Vis e k =>
      match e with Load _ | Store _ _ => False | _ => True end
      /\ forall x, memory_free (k x)
  end.

(** ** The driver's side of the callback table *)

(** Modelled from the spec: the driver is not part of the sources; the
    spec has "exactly three function-pointer slots: stream-A, stream-B,
    event" that "the driver invokes directly when data or events are
    ready". A native invocation names the slot and carries the
    arguments of its C signature. *)
Inductive native_call : Set :=
| Native_StreamA (xi xq params numSamples reset cbContext : Z)
| Native_StreamB (xi xq params numSamples reset cbContext : Z)
| Native_Event (eventId tuner params cbContext : Z).

Section Driver.
Context {dm : data_model}.

(** Calls through function pointers. *)
Definition call_stream_fn (f : stream_fn)
  : Z -> Z -> Z -> Z -> Z -> Z -> prog unit :=
  match f with
  | Fn_cgoStreamACallback => cgoStreamACallback
  | Fn_cgoStreamBCallback => cgoStreamBCallback
  end.

Definition call_event_fn (f : event_fn) : Z -> Z -> Z -> Z -> prog unit :=
  match f with Fn_cgoEventCallback => cgoEventCallback end.

(** Modelled from the spec: the driver invoking a slot of a table;
    [None] is the "uninitialized-callback fault" of an unset slot. *)
Definition deliver (tbl : sdrplay_api_CallbackFnsT) (n : native_call)
  : option (prog unit) :=
  match n with
  | Native_StreamA xi xq params numSamples reset cbContext =>
      f ← StreamACbFn tbl;
      Some (call_stream_fn f xi xq params numSamples reset cbContext)
  | Native_StreamB xi xq params numSamples reset cbContext =>
      f ← StreamBCbFn tbl;
      Some (call_stream_fn f xi xq params numSamples reset cbContext)
  | Native_Event eventId tuner params cbContext =>
      f ← EventCbFn tbl;
      Some (call_event_fn f eventId tuner params cbContext)
  end.

(** The table [wrapper_api_Init] builds in [cbFuncs]. *)
Definition registered : sdrplay_api_CallbackFnsT :=
  {| StreamACbFn := Some Fn_cgoStreamACallback;
     StreamBCbFn := Some Fn_cgoStreamBCallback;
     EventCbFn := Some Fn_cgoEventCallback |}.

(** The function of this file a native invocation reaches through
    [registered]. *)
Definition entry_point (n : native_call) : prog unit :=
  match n with
  | Native_StreamA xi xq params numSamples reset cbContext =>
      cgoStreamACallback xi xq params numSamples reset cbContext
  | Native_StreamB xi xq params numSamples reset cbContext =>
      cgoStreamBCallback xi xq params numSamples reset cbContext
  | Native_Event eventId tuner params cbContext =>
      cgoEventCallback eventId tuner params cbContext
  end.

(** A sequence of native invocations through a table, in order. *)
Fixpoint deliver_all (env : environment) (tbl : sdrplay_api_CallbackFnsT)
    (ns : list native_call) (m : machine) : option machine :=
  match ns with
  | [] => Some m
  | n :: ns' =>
      p ← deliver tbl n;
      deliver_all env tbl ns' (run env p m).2
  end.

(** A native invocation through a retained pointer to a table in
    automatic storage; [None] when the pointer dangles or the slot is
    unset. *)
Definition deliver_through (env : environment) (t : nat) (n : native_call)
    (m : machine) : option machine :=
  tbl ← stack m !! t;
  p ← deliver tbl n;
  Some (run env p m).2.

(** The arguments of a native invocation are values of their C types. *)
Definition wf_native (n : native_call) : Prop :=
  match n with
  | Native_StreamA xi xq params numSamples reset cbContext
  | Native_StreamB xi xq params numSamples reset cbContext =>
      is_ptr xi /\ is_ptr xq /\ is_ptr params /\
      is_uint numSamples /\ is_uint reset /\ is_ptr cbContext
  | Native_Event eventId tuner params cbContext =>
      is_int32 eventId /\ is_int32 tuner /\ is_ptr params /\ is_ptr cbContext
  end.
End Driver.

(** Modelled from the spec: what the receiver is to observe for a native
    invocation, "the identical sample count and reset-flag value",
    "the same two integer values", and handles equal to the addresses. *)
Definition observed (n : native_call) : host_call :=
  match n with
  | Native_StreamA xi xq params numSamples reset cbContext =>
      streamACallback xi xq params numSamples reset cbContext
  | Native_StreamB xi xq params numSamples reset cbContext =>
      streamBCallback xi xq params numSamples reset cbContext
  | Native_Event eventId tuner params cbContext =>
      eventCallback eventId tuner params cbContext
  end.

(** The memory after the receivers of a list of calls ran in order. *)
Definition receive_all (env : environment) (cs : list host_call)
    (h : gmap Z Z) : gmap Z Z :=
  foldl (fun h c => host_receiver env c h) h cs.

(** ** Simulated collaborators *)

Definition empty_machine : machine := {| heap := ∅; stack := []; trace := [] |}.

(** Stub receivers that leave memory alone, and a driver whose
    initialisation answers with a fixed status code. *)
Definition stub_env (status : Z) : environment :=
  {| host_receiver := fun _ h => h;
     driver_init := fun _ _ _ h => (status, h) |}.

(** A driver that counts its initialisations at address 0 and answers
    with the count; receivers that write the sample count they are
    handed to the address of the i-buffer. *)
Definition counting_env : environment :=
  {| host_receiver := fun c h =>
       match c with
       | streamACallback xi _ _ numSamples _ _
       | streamBCallback xi _ _ numSamples _ _ => <[xi := numSamples]> h
       | eventCallback _ _ _ _ => h
       end;
     driver_init := fun _ _ _ h =>
       let n := default 0 (h !! 0) + 1 in (n, <[0 := n]> h) |}.

(** ** Observations on runs *)

(** The events of one run of [wrapper_api_Init] whose table is at [t]
    and whose driver call answers [err]. *)
Definition init_events (dev : Z) (t : nat) (cbContext err : Z) : list event :=
  [ Ev_alloc t;
    Ev_assign t (Set_StreamACbFn Fn_cgoStreamACallback);
    Ev_assign t (Set_StreamBCbFn Fn_cgoStreamBCallback);
    Ev_assign t (Set_EventCbFn Fn_cgoEventCallback);
    Ev_init dev t (Some registered) cbContext err;
    Ev_free t ].

Definition is_init_event (ev : event) : bool :=
  match ev with Ev_init _ _ _ _ _ => true | _ => false end.

Definition is_assign_event (ev : event) : bool :=
  match ev with Ev_assign _ _ => true | _ => false end.

(** The table a retained pointer [t] refers to is still the registered
    one. *)
Definition table_valid (t : nat) (m : machine) : Prop :=
  stack m !! t = Some registered.

(** The table handed to the driver is still there when
    [wrapper_api_Init] has returned. *)
Definition table_survives_init {dm : data_model}
    (env : environment) (dev : Z) (m : machine) : Prop :=
  table_valid (length (stack m)) (run env (wrapper_api_Init dev) m).2.

Definition is_memory_event (ev : event) : bool :=
  match ev with Ev_load _ _ | Ev_store _ _ => true | _ => false end.

(** The calls of Go receivers among a list of events, in order. *)
Definition is_host_event (ev : event) : bool :=
  match ev with Ev_host _ => true | _ => false end.

Definition host_calls (evs : list event) : list host_call :=
  omap (fun ev => match ev with Ev_host c => Some c | _ => None end) evs.

(** The receiver that belongs to the slot of a native invocation. *)
Definition slot_of (n : native_call) : receiver :=
  match n with
  | Native_StreamA _ _ _ _ _ _ => Receiver_streamA
  | Native_StreamB _ _ _ _ _ _ => Receiver_streamB
  | Native_Event _ _ _ _ => Receiver_event
  end.

Section HostTypes.
Context {dm : data_model}.

(** The arguments of a call of a Go receiver are values of the Go types
    of its signature: [GoUintptr], [GoUint32], [GoInt32]. *)
Definition wf_host_call (c : host_call) : Prop :=
  match c with
  | streamACallback xi xq params numSamples reset cbContext
  | streamBCallback xi xq params numSamples reset cbContext =>
      is_GoUintptr xi /\ is_GoUintptr xq /\ is_GoUintptr params /\
      is_uint numSamples /\ is_uint reset /\ is_GoUintptr cbContext
  | eventCallback eventId tuner params cbContext =>
      is_int32 eventId /\ is_int32 tuner /\
      is_GoUintptr params /\ is_GoUintptr cbContext
  end.

(** A call carries the arguments of a native invocation up to the bits
    above the width of each argument's type. *)
Definition same_bits (n : native_call) (c : host_call) : Prop :=
  let W := 2 ^ ptr_bits dm in
  match n, c with
  | Native_StreamA xi xq params numSamples reset cbContext,
    streamACallback hi hq hp hn hr hc
  | Native_StreamB xi xq params numSamples reset cbContext,
    streamBCallback hi hq hp hn hr hc =>
      hi mod W = xi mod W /\ hq mod W = xq mod W /\ hp mod W = params mod W /\
      hn mod 2 ^ 32 = numSamples mod 2 ^ 32 /\ hr mod 2 ^ 32 = reset mod 2 ^ 32 /\
      hc mod W = cbContext mod W
  | Native_Event eventId tuner params cbContext, eventCallback e t hp hc =>
      e mod 2 ^ 32 = eventId mod 2 ^ 32 /\ t mod 2 ^ 32 = tuner mod 2 ^ 32 /\
      hp mod W = params mod W /\ hc mod W = cbContext mod W
  | _, _ => False
  end.

(** The calls a native invocation forwards when its trampoline runs
    alone: on the empty machine, with stub receivers. *)
Definition forwarded_alone (n : native_call) : list host_call :=
  host_calls (trace (run (stub_env 0) (entry_point n) empty_machine).2).

(** Successive calls of [wrapper_api_Init], one per device handle of a
    list, collecting the status codes. *)
Fixpoint init_each (devs : list Z) : prog (list Z) :=
  match devs with
  | [] => mret []
  | dev :: devs' =>
      err ← wrapper_api_Init dev;
      errs ← init_each devs';
      mret (err :: errs)
  end.

(** The driver's answers to successive initialisations with the
    registered table, and the memory it leaves. *)
Fixpoint drive_each (env : environment) (devs : list Z) (h : gmap Z Z)
  : list Z * gmap Z Z :=
  match devs with
  | [] => ([], h)
  | dev :: devs' =>
      let r := driver_init env dev (Some registered) (ptr_of_HANDLE dev) h in
      let rs := drive_each env devs' r.2 in
      (r.1 :: rs.1, rs.2)
  end.
End HostTypes.

(** * Theorems *)

Ltac in_range := unfold is_ptr, is_uint, is_int32, ptr_bits; lia.

(** ** Conversions are exact on values of the source type *)

Section ConversionFacts.
Context {dm : data_model}.

Lemma ptr_bits_pos : 0 < 2 ^ ptr_bits dm.
Proof. destruct dm; reflexivity. Qed.

Lemma GoUintptr_of_ptr_exact p : is_ptr p -> GoUintptr_of_ptr p = p.
Proof. intros Hp. apply Z.mod_small, Hp. Qed.

Lemma GoUintptr_of_ptr_range p : is_GoUintptr (GoUintptr_of_ptr p).
Proof. apply Z.mod_pos_bound, ptr_bits_pos. Qed.

Lemma GoUint32_of_uint_exact n : is_uint n -> GoUint32_of_uint n = n.
Proof. intros Hn. apply Z.mod_small, Hn. Qed.

Lemma GoInt32_of_enum_exact e : is_int32 e -> GoInt32_of_enum e = e.
Proof.
  unfold is_int32, GoInt32_of_enum. intros He.
  rewrite Z.mod_small; lia.
Qed.

Lemma GoInt32_of_enum_range e : is_int32 (GoInt32_of_enum e).
Proof.
  unfold is_int32, GoInt32_of_enum.
  pose proof (Z.mod_pos_bound (e + 2 ^ 31) (2 ^ 32)). lia.
Qed.

Lemma ptr_of_GoUintptr_of_ptr p :
  is_ptr p -> ptr_of_GoUintptr (GoUintptr_of_ptr p) = p.
Proof.
  intros Hp. rewrite (GoUintptr_of_ptr_exact p Hp).
  apply Z.mod_small, Hp.
Qed.

Lemma ptr_of_HANDLE_exact dev : is_ptr dev -> ptr_of_HANDLE dev = dev.
Proof. intros Hp. apply Z.mod_small, Hp. Qed.
End ConversionFacts.

(** ** Running the trampolines *)

Lemma run_host env c m :
  run env (perform (Host c)) m
  = (tt, log (Ev_host c) (set_heap (host_receiver env c (heap m)) m)).
Proof. reflexivity. Qed.

Lemma new_events_app m m' evs :
  trace m' = trace m ++ evs -> new_events m m' = evs.
Proof. unfold new_events. intros ->. apply drop_app_length. Qed.

Section Trampolines.
Context {dm : data_model}.

(** A trampoline changes the machine by one host call: the call is
    logged and the receiver acts on the memory. *)
Lemma run_entry_point env n m :
  exists c,
    entry_point n = perform (Host c) /\
    run env (entry_point n) m
    = (tt, log (Ev_host c) (set_heap (host_receiver env c (heap m)) m)).
Proof. destruct n; eexists; split; reflexivity. Qed.

Lemma entry_point_observed n :
  wf_native n -> entry_point n = perform (Host (observed n)).
Proof.
  destruct n; simpl; intros H;
    unfold cgoStreamACallback, cgoStreamBCallback, cgoEventCallback;
    repeat match type of H with _ /\ _ => destruct H as [? H] end;
    rewrite ?GoUintptr_of_ptr_exact, ?GoUint32_of_uint_exact,
      ?GoInt32_of_enum_exact by assumption;
    reflexivity.
Qed.

Lemma deliver_registered n : deliver registered n = Some (entry_point n).
Proof. destruct n; reflexivity. Qed.

(** C1: for both channels and every tuple of arguments of the native
    stream callback, the trampoline calls the Go receiver of its
    channel once with handles equal to the addresses, which decode
    back to them, and with the sample count and the reset flag as
    given. *)
Theorem stream_forwarding_exact env m xi xq params numSamples reset cbContext :
  is_ptr xi -> is_ptr xq -> is_ptr params ->
  is_uint numSamples -> is_uint reset -> is_ptr cbContext ->
  trace (run env (cgoStreamACallback xi xq params numSamples reset cbContext) m).2
    = trace m ++ [Ev_host (streamACallback xi xq params numSamples reset cbContext)]
  /\ trace (run env (cgoStreamBCallback xi xq params numSamples reset cbContext) m).2
    = trace m ++ [Ev_host (streamBCallback xi xq params numSamples reset cbContext)]
  /\ ptr_of_GoUintptr (GoUintptr_of_ptr xi) = xi
  /\ ptr_of_GoUintptr (GoUintptr_of_ptr xq) = xq
  /\ ptr_of_GoUintptr (GoUintptr_of_ptr params) = params
  /\ ptr_of_GoUintptr (GoUintptr_of_ptr cbContext) = cbContext.
Proof.
  intros Hi Hq Hp Hn Hr Hc.
  unfold cgoStreamACallback, cgoStreamBCallback.
  rewrite !run_host. simpl.
  rewrite (GoUintptr_of_ptr_exact xi Hi), (GoUintptr_of_ptr_exact xq Hq),
    (GoUintptr_of_ptr_exact params Hp), (GoUintptr_of_ptr_exact cbContext Hc),
    (GoUint32_of_uint_exact numSamples Hn), (GoUint32_of_uint_exact reset Hr).
  repeat split; apply Z.mod_small; assumption.
Qed.

(** C2: an invocation of the stream-A slot of the registered table
    reaches the A receiver and no other, and an invocation of the
    stream-B slot reaches the B receiver and no other. *)
Theorem routing_exclusive env m xi xq params numSamples reset cbContext :
  (exists p,
      deliver registered
        (Native_StreamA xi xq params numSamples reset cbContext) = Some p
      /\ exists c, new_events m (run env p m).2 = [Ev_host c]
                   /\ receiver_of c = Receiver_streamA)
  /\ (exists p,
      deliver registered
        (Native_StreamB xi xq params numSamples reset cbContext) = Some p
      /\ exists c, new_events m (run env p m).2 = [Ev_host c]
                   /\ receiver_of c = Receiver_streamB).
Proof.
  split; eexists; (split; [reflexivity|]); eexists;
    (split; [apply new_events_app; reflexivity | reflexivity]).
Qed.

(** C3: for every pair of event and tuner codes, the event trampoline
    calls the Go event receiver with the same two values, which are
    signed 32-bit integers, and with the addresses of the parameter
    structure and of the context as handles of the width of an
    address. *)
Theorem event_forwarding_exact env m eventId tuner params cbContext :
  is_int32 eventId -> is_int32 tuner -> is_ptr params -> is_ptr cbContext ->
  exists e t hp hc,
    trace (run env (cgoEventCallback eventId tuner params cbContext) m).2
      = trace m ++ [Ev_host (eventCallback e t hp hc)]
    /\ e = eventId /\ t = tuner /\ is_int32 e /\ is_int32 t
    /\ hp = params /\ hc = cbContext /\ is_GoUintptr hp /\ is_GoUintptr hc.
Proof.
  intros He Ht Hp Hc.
  exists (GoInt32_of_enum eventId), (GoInt32_of_enum tuner),
    (GoUintptr_of_ptr params), (GoUintptr_of_ptr cbContext).
  split; [reflexivity|].
  rewrite <- (GoInt32_of_enum_exact eventId) at 2 by assumption.
  rewrite <- (GoInt32_of_enum_exact tuner) at 2 by assumption.
  rewrite <- (GoUintptr_of_ptr_exact params) at 2 by assumption.
  rewrite <- (GoUintptr_of_ptr_exact cbContext) at 2 by assumption.
  repeat split; try reflexivity;
    first [apply GoInt32_of_enum_range | apply GoUintptr_of_ptr_range].
Qed.

(** C10: the stream trampolines hand the reset flag on as it is, for
    every unsigned 32-bit value and not only for 0 and 1. *)
Theorem reset_flag_not_normalised env m xi xq params numSamples reset cbContext :
  is_uint reset ->
  exists hi hq hp hn hc,
    trace (run env (cgoStreamACallback xi xq params numSamples reset cbContext) m).2
      = trace m ++ [Ev_host (streamACallback hi hq hp hn reset hc)]
    /\ trace (run env (cgoStreamBCallback xi xq params numSamples reset cbContext) m).2
      = trace m ++ [Ev_host (streamBCallback hi hq hp hn reset hc)].
Proof.
  intros Hr. do 5 eexists.
  unfold cgoStreamACallback, cgoStreamBCallback. rewrite !run_host. simpl.
  rewrite (GoUint32_of_uint_exact reset) by assumption.
  split; reflexivity.
Qed.
End Trampolines.

(** ** Running the initialisation wrapper *)

Lemma alter_innermost {A : Type} (f : A -> A) (l : list A) (x : A) :
  alter f (length l) (l ++ [x]) = l ++ [f x].
Proof.
  rewrite <- (Nat.add_0_r (length l)) at 1.
  rewrite alter_app_r. reflexivity.
Qed.

Lemma lookup_innermost {A : Type} (l : list A) (x : A) :
  (l ++ [x]) !! length l = Some x.
Proof. apply list_lookup_middle. reflexivity. Qed.

Section Initialisation.
Context {dm : data_model}.

Lemma run_wrapper_api_Init env dev m :
  let r := driver_init env dev (Some registered) (ptr_of_HANDLE dev) (heap m) in
  run env (wrapper_api_Init dev) m
  = (r.1, {| heap := r.2;
             stack := stack m;
             trace := trace m
               ++ init_events dev (length (stack m)) (ptr_of_HANDLE dev) r.1 |}).
Proof.
  unfold wrapper_api_Init. cbn.
  rewrite !alter_innermost, lookup_innermost, take_app_length. cbn.
  unfold log, set_heap, set_stack. cbn.
  rewrite <- !app_assoc. reflexivity.
Qed.
End Initialisation.

Section InitialisationTheorems.
Context {dm : data_model}.

(** C4: whatever status code the driver's initialisation answers for
    the device, [wrapper_api_Init] returns that code; the driver is
    called once and what it did to memory is left as it is. *)
Theorem init_status_passthrough env dev m err h' :
  driver_init env dev (Some registered) (ptr_of_HANDLE dev) (heap m) = (err, h') ->
  let r := run env (wrapper_api_Init dev) m in
  r.1 = err
  /\ List.filter is_init_event (new_events m r.2)
     = [Ev_init dev (length (stack m)) (Some registered) (ptr_of_HANDLE dev) err]
  /\ heap r.2 = h'.
Proof.
  intros Hdrv. cbv zeta. rewrite run_wrapper_api_Init. cbv zeta.
  rewrite Hdrv. cbn [fst snd heap trace].
  split; [reflexivity|]. split; [|reflexivity].
  erewrite new_events_app by reflexivity. reflexivity.
Qed.

(** C5: for every device handle, [wrapper_api_Init] assigns the three
    slots of the table, in the order stream A, stream B, event, with
    the three trampolines, and only then calls the driver, with the
    handle as the device, the pointer to the populated table, and the
    handle again as the context. *)
Theorem init_registers_then_calls_driver env dev m :
  is_ptr dev ->
  let t := length (stack m) in
  let r := run env (wrapper_api_Init dev) m in
  new_events m r.2
  = [ Ev_alloc t;
      Ev_assign t (Set_StreamACbFn Fn_cgoStreamACallback);
      Ev_assign t (Set_StreamBCbFn Fn_cgoStreamBCallback);
      Ev_assign t (Set_EventCbFn Fn_cgoEventCallback);
      Ev_init dev t (Some registered) dev r.1;
      Ev_free t ]
  /\ StreamACbFn registered = Some Fn_cgoStreamACallback
  /\ StreamBCbFn registered = Some Fn_cgoStreamBCallback
  /\ EventCbFn registered = Some Fn_cgoEventCallback.
Proof.
  intros Hdev. cbv zeta. rewrite run_wrapper_api_Init. cbv zeta.
  cbn [fst snd trace]. rewrite (ptr_of_HANDLE_exact dev Hdev).
  split; [|repeat split].
  apply new_events_app. reflexivity.
Qed.

(** C9, as the code has it: the table is an automatic variable of
    [wrapper_api_Init]. Each of its three slots is assigned once, the
    driver's initialisation sees it populated, and it is released
    when [wrapper_api_Init] returns: a pointer to it the driver kept
    dangles from then on. *)
Theorem callback_table_lives_during_init env dev m :
  let t := length (stack m) in
  let r := run env (wrapper_api_Init dev) m in
  List.filter is_assign_event (new_events m r.2)
  = [ Ev_assign t (Set_StreamACbFn Fn_cgoStreamACallback);
      Ev_assign t (Set_StreamBCbFn Fn_cgoStreamBCallback);
      Ev_assign t (Set_EventCbFn Fn_cgoEventCallback) ]
  /\ (exists pre, new_events m r.2
        = pre ++ [Ev_init dev t (Some registered) (ptr_of_HANDLE dev) r.1;
                  Ev_free t])
  /\ stack r.2 !! t = None
  /\ forall env' n, deliver_through env' t n r.2 = None.
Proof.
  cbv zeta. rewrite run_wrapper_api_Init. cbv zeta. cbn [fst snd stack].
  erewrite new_events_app by reflexivity.
  assert (Hgone : stack m !! length (stack m) = None)
    by (apply lookup_ge_None; reflexivity).
  split; [reflexivity|]. split.
  - eexists [_; _; _; _]. reflexivity.
  - split; [exact Hgone|].
    intros env' n. unfold deliver_through. cbn [stack].
    rewrite Hgone. reflexivity.
Qed.
End InitialisationTheorems.

Lemma host_calls_hosts cs : host_calls (Ev_host <$> cs) = cs.
Proof.
  induction cs as [|c cs IH]; [reflexivity|].
  cbn. unfold host_calls in IH. rewrite IH. reflexivity.
Qed.

Lemma memory_events_hosts cs :
  List.filter is_memory_event (Ev_host <$> cs) = [].
Proof. induction cs as [|c cs IH]; [reflexivity | exact IH]. Qed.

Section ForwardingTheorems.
Context {dm : data_model}.

Lemma deliver_all_registered env n ns m :
  deliver_all env registered (n :: ns) m
  = deliver_all env registered ns (run env (entry_point n) m).2.
Proof. cbn [deliver_all]. rewrite deliver_registered. reflexivity. Qed.

(** C6: a sequence of native invocations through the registered table
    yields one call of the matching Go receiver per invocation, in the
    order of the invocations, and nothing else: no other event, the
    stack of automatic storage as it was, memory changed by the
    receivers alone. *)
Theorem one_host_call_per_native_call env ns m :
  Forall wf_native ns ->
  exists m',
    deliver_all env registered ns m = Some m'
    /\ trace m' = trace m ++ ((fun n => Ev_host (observed n)) <$> ns)
    /\ stack m' = stack m
    /\ heap m' = receive_all env (observed <$> ns) (heap m).
Proof.
  intros Hwf. revert m.
  induction Hwf as [|n ns Hn _ IH]; intros m.
  - exists m. cbn. rewrite app_nil_r. repeat split; reflexivity.
  - rewrite deliver_all_registered, (entry_point_observed n Hn), run_host.
    destruct (IH (log (Ev_host (observed n))
                    (set_heap (host_receiver env (observed n) (heap m)) m)))
      as (m' & Hrun & Htr & Hst & Hhp).
    exists m'. split; [exact Hrun|].
    rewrite Htr, Hst, Hhp. cbn. rewrite <- app_assoc. repeat split; reflexivity.
Qed.

(** C7: a trampoline has no load and no store in it; run on any
    machine it records no memory access, and memory changes only by
    what the Go receiver does with the call, which is the same call
    whatever memory holds. *)
Theorem forwarding_leaves_memory_alone env n :
  memory_free (entry_point n)
  /\ exists c, forall m,
       new_events m (run env (entry_point n) m).2 = [Ev_host c]
       /\ List.filter is_memory_event (new_events m (run env (entry_point n) m).2) = []
       /\ heap (run env (entry_point n) m).2 = host_receiver env c (heap m).
Proof.
  split.
  - destruct n; cbn; auto.
  - destruct (run_entry_point env n empty_machine) as (c & Hc & _).
    exists c. intros m. rewrite Hc, run_host. cbn [snd].
    erewrite new_events_app by reflexivity.
    repeat split; reflexivity.
Qed.

Lemma deliver_all_registered_total env ns m :
  is_Some (deliver_all env registered ns m).
Proof.
  revert m. induction ns as [|n ns IH]; intros m.
  - eexists. reflexivity.
  - rewrite deliver_all_registered. apply IH.
Qed.

Lemma forwarded_alone_call n :
  exists c, entry_point n = perform (Host c) /\ forwarded_alone n = [c].
Proof.
  destruct (run_entry_point (stub_env 0) n empty_machine) as (c & Hc & _).
  exists c. split; [exact Hc|].
  unfold forwarded_alone. rewrite Hc. reflexivity.
Qed.

(** Any sequence of native invocations forwards, in order, what each
    invocation forwards alone, and changes nothing but through the
    receivers. *)
Lemma deliver_all_alone env ns m :
  exists m',
    deliver_all env registered ns m = Some m'
    /\ trace m' = trace m ++ (Ev_host <$> concat (forwarded_alone <$> ns))
    /\ stack m' = stack m
    /\ heap m' = receive_all env (concat (forwarded_alone <$> ns)) (heap m).
Proof.
  revert m. induction ns as [|n ns IH]; intros m.
  - exists m. cbn. rewrite app_nil_r. repeat split; reflexivity.
  - rewrite deliver_all_registered.
    destruct (forwarded_alone_call n) as (c & Hc & Halone).
    rewrite Hc, run_host. cbn [snd].
    destruct (IH (log (Ev_host c) (set_heap (host_receiver env c (heap m)) m)))
      as (m' & Hrun & Htr & Hst & Hhp).
    exists m'. split; [exact Hrun|].
    rewrite Htr, Hst, Hhp. cbn [fmap list_fmap concat]. rewrite Halone.
    cbn. rewrite <- app_assoc. repeat split; reflexivity.
Qed.

(** C8: the trampolines keep no state. None has a load or a store in
    it; run on any machine with any collaborators, a trampoline does
    one thing, the call of its receiver, and that call is a function of
    the native arguments alone: the stack of automatic storage is left
    as found and memory changes only by what the receiver does. So the
    same native invocation forwards the same call on any two machines
    and after any two histories of earlier invocations, and in every
    interleaving of invocations of the three slots each invocation
    forwards exactly what it forwards alone, with no memory access of
    the shim in between. *)
Theorem forwarding_stateless env1 env2 m1 m2 n :
  new_events m1 (run env1 (entry_point n) m1).2
  = new_events m2 (run env2 (entry_point n) m2).2
  /\ stack (run env1 (entry_point n) m1).2 = stack m1
  /\ stack (run env2 (entry_point n) m2).2 = stack m2
  /\ (forall before1 before2, exists m1' m2',
       deliver_all env1 registered before1 m1 = Some m1'
       /\ deliver_all env2 registered before2 m2 = Some m2'
       /\ new_events m1' (run env1 (entry_point n) m1').2
          = new_events m2' (run env2 (entry_point n) m2').2)
  /\ memory_free (entry_point n)
  /\ (exists c, forall env m,
        run env (entry_point n) m
        = (tt, {| heap := host_receiver env c (heap m);
                  stack := stack m;
                  trace := trace m ++ [Ev_host c] |}))
  /\ (forall env ns m, exists m',
        deliver_all env registered ns m = Some m'
        /\ new_events m m' = Ev_host <$> concat (forwarded_alone <$> ns)
        /\ List.filter is_memory_event (new_events m m') = []
        /\ stack m' = stack m
        /\ heap m' = receive_all env (concat (forwarded_alone <$> ns)) (heap m)).
Proof.
  assert (Hsame : forall ma mb,
    new_events ma (run env1 (entry_point n) ma).2
    = new_events mb (run env2 (entry_point n) mb).2).
  { intros ma mb. destruct (run_entry_point env1 n ma) as (c & Hc & _).
    rewrite Hc, !run_host. cbn [snd].
    rewrite !(new_events_app _ _ [Ev_host c]) by reflexivity.
    reflexivity. }
  split; [apply Hsame|].
  split; [destruct n; reflexivity|].
  split; [destruct n; reflexivity|].
  split.
  { intros before1 before2.
    destruct (deliver_all_registered_total env1 before1 m1) as [m1' H1].
    destruct (deliver_all_registered_total env2 before2 m2) as [m2' H2].
    exists m1', m2'. split; [exact H1|]. split; [exact H2|]. apply Hsame. }
  split; [destruct n; cbn; auto|].
  split.
  { destruct (forwarded_alone_call n) as (c & Hc & _).
    exists c. intros env m. rewrite Hc. reflexivity. }
  intros env ns m.
  destruct (deliver_all_alone env ns m) as (m' & Hrun & Htr & Hst & Hhp).
  exists m'. split; [exact Hrun|].
  rewrite (new_events_app m m' _ Htr), memory_events_hosts.
  repeat split; assumption.
Qed.
End ForwardingTheorems.

(** ** The theorems at concrete inputs *)

(** The scenario of the specification: the driver calls the stream-A
    trampoline with buffers at 0x1000 and 0x2000, 256 samples, reset 0
    and context 0xABCD. *)
Lemma stream_forwarding_exact_witness :
  (is_ptr (dm:=LP64) 0x1000 /\ is_ptr (dm:=LP64) 0x2000
   /\ is_ptr (dm:=LP64) 0x3000 /\ is_uint 256 /\ is_uint 0
   /\ is_ptr (dm:=LP64) 0xABCD)
  /\ trace (run (stub_env 0)
              (cgoStreamACallback (dm:=LP64) 0x1000 0x2000 0x3000 256 0 0xABCD)
              empty_machine).2
     = [Ev_host (streamACallback 0x1000 0x2000 0x3000 256 0 0xABCD)].
Proof.
  split; [repeat split; in_range|].
  apply (stream_forwarding_exact (dm:=LP64) (stub_env 0) empty_machine
           0x1000 0x2000 0x3000 256 0 0xABCD); in_range.
Defined.

(** A negative event code on a 32-bit target. *)
Lemma event_forwarding_exact_witness :
  (is_int32 (-1) /\ is_int32 3
   /\ is_ptr (dm:=ILP32) 0x4000 /\ is_ptr (dm:=ILP32) 0xABCD)
  /\ exists e t hp hc,
      trace (run counting_env
               (cgoEventCallback (dm:=ILP32) (-1) 3 0x4000 0xABCD)
               empty_machine).2
      = [Ev_host (eventCallback e t hp hc)]
      /\ e = -1 /\ t = 3 /\ hp = 0x4000 /\ hc = 0xABCD.
Proof.
  split; [repeat split; in_range|].
  destruct (event_forwarding_exact (dm:=ILP32) counting_env empty_machine
              (-1) 3 0x4000 0xABCD)
    as (e & t & hp & hc & Htr & He & Ht & _ & _ & Hp & Hc & _); try in_range.
  exists e, t, hp, hc. repeat split; assumption.
Defined.

(** The largest reset value. *)
Lemma reset_flag_not_normalised_witness :
  is_uint 0xFFFFFFFF
  /\ exists hi hq hp hn hc,
      trace (run (stub_env 0)
               (cgoStreamACallback (dm:=LP64) 0x1000 0x2000 0x3000 256 0xFFFFFFFF 0xABCD)
               empty_machine).2
      = trace empty_machine ++ [Ev_host (streamACallback hi hq hp hn 0xFFFFFFFF hc)]
      /\ trace (run (stub_env 0)
               (cgoStreamBCallback (dm:=LP64) 0x1000 0x2000 0x3000 256 0xFFFFFFFF 0xABCD)
               empty_machine).2
      = trace empty_machine ++ [Ev_host (streamBCallback hi hq hp hn 0xFFFFFFFF hc)].
Proof.
  split; [in_range|].
  apply (reset_flag_not_normalised (dm:=LP64) (stub_env 0) empty_machine
           0x1000 0x2000 0x3000 256 0xFFFFFFFF 0xABCD).
  in_range.
Defined.

(** The example of the specification: the driver answers 7. *)
Lemma init_status_passthrough_witness :
  driver_init (stub_env 7) 0xABCD (Some registered)
    (ptr_of_HANDLE (dm:=LP64) 0xABCD) (heap empty_machine) = (7, ∅)
  /\ (run (stub_env 7) (wrapper_api_Init (dm:=LP64) 0xABCD) empty_machine).1 = 7.
Proof.
  split; [reflexivity|].
  apply (init_status_passthrough (dm:=LP64) (stub_env 7) 0xABCD empty_machine 7 ∅).
  reflexivity.
Defined.

(** A driver that answers with the number of its initialisations. *)
Lemma init_registers_then_calls_driver_witness :
  is_ptr (dm:=LP64) 0xABCD
  /\ new_events empty_machine
       (run counting_env (wrapper_api_Init (dm:=LP64) 0xABCD) empty_machine).2
     = init_events 0xABCD 0 0xABCD 1.
Proof.
  split; [in_range|].
  apply (init_registers_then_calls_driver (dm:=LP64) counting_env 0xABCD empty_machine).
  in_range.
Defined.

(** Three invocations, one per slot, with receivers that write to the
    i-buffer. *)
Lemma one_host_call_per_native_call_witness :
  Forall (wf_native (dm:=LP64))
    [ Native_StreamA 0x1000 0x2000 0x3000 256 0 0xABCD;
      Native_Event 1 2 0x4000 0xABCD;
      Native_StreamB 0x5000 0x6000 0x3000 128 1 0xABCD ]
  /\ exists m',
    deliver_all (dm:=LP64) counting_env registered
      [ Native_StreamA 0x1000 0x2000 0x3000 256 0 0xABCD;
        Native_Event 1 2 0x4000 0xABCD;
        Native_StreamB 0x5000 0x6000 0x3000 128 1 0xABCD ] empty_machine
    = Some m'
    /\ trace m'
       = [ Ev_host (streamACallback 0x1000 0x2000 0x3000 256 0 0xABCD);
           Ev_host (eventCallback 1 2 0x4000 0xABCD);
           Ev_host (streamBCallback 0x5000 0x6000 0x3000 128 1 0xABCD) ]
    /\ stack m' = []
    /\ heap m' = <[0x5000 := 128]> (<[0x1000 := 256]> ∅).
Proof.
  assert (Hwf : Forall (wf_native (dm:=LP64))
    [ Native_StreamA 0x1000 0x2000 0x3000 256 0 0xABCD;
      Native_Event 1 2 0x4000 0xABCD;
      Native_StreamB 0x5000 0x6000 0x3000 128 1 0xABCD ])
    by (repeat constructor; in_range).
  split; [exact Hwf|].
  exact (one_host_call_per_native_call (dm:=LP64) counting_env _ empty_machine Hwf).
Defined.

(** C9, as the claim has it, fails: after [wrapper_api_Init] has
    returned, the table whose address the driver was given is gone. *)
Lemma callback_table_dangles_after_init :
  ~ table_survives_init (dm:=LP64) (stub_env 0) 0xABCD empty_machine.
Proof. unfold table_survives_init, table_valid. vm_compute. discriminate. Qed.

(** A driver that kept the pointer cannot deliver after the
    initialisation; one that copied the table during it can. *)
Example late_delivery :
  let m := (run (stub_env 0) (wrapper_api_Init (dm:=LP64) 0xABCD) empty_machine).2 in
  deliver_through (dm:=LP64) (stub_env 0) 0
    (Native_StreamA 0x1000 0x2000 0x3000 256 0 0xABCD) m = None
  /\ (new_events m <$> deliver_all (dm:=LP64) (stub_env 0) registered
        [Native_StreamA 0x1000 0x2000 0x3000 256 0 0xABCD] m)
     = Some [Ev_host (streamACallback 0x1000 0x2000 0x3000 256 0 0xABCD)].
Proof. split; vm_compute; reflexivity. Qed.

(** ** Further properties of the trampolines *)

Lemma GoInt32_of_enum_same_bits e :
  GoInt32_of_enum e mod 2 ^ 32 = e mod 2 ^ 32.
Proof.
  unfold GoInt32_of_enum. rewrite Zminus_mod_idemp_l.
  f_equal. lia.
Qed.

Lemma observed_inj n1 n2 : observed n1 = observed n2 -> n1 = n2.
Proof. destruct n1, n2; cbn; intros H; inversion H; reflexivity. Qed.

Section TrampolineProperties.
Context {dm : data_model}.

(** What a sequence of native invocations through the registered table
    leaves: one call per invocation, each the one its trampoline
    performs. *)
Lemma deliver_all_calls env ns m :
  exists m' cs,
    deliver_all env registered ns m = Some m'
    /\ trace m' = trace m ++ (Ev_host <$> cs)
    /\ Forall2 (fun n c => entry_point n = perform (Host c)) ns cs.
Proof.
  revert m. induction ns as [|n ns IH]; intros m.
  - exists m, []. cbn. rewrite app_nil_r. repeat split. constructor.
  - rewrite deliver_all_registered.
    destruct (run_entry_point env n m) as (c & Hc & Hrun).
    rewrite Hrun. cbn [snd].
    destruct (IH (log (Ev_host c) (set_heap (host_receiver env c (heap m)) m)))
      as (m' & cs & Hall & Htr & Hcs).
    exists m', (c :: cs). split; [exact Hall|]. split.
    + rewrite Htr. cbn. rewrite <- app_assoc. reflexivity.
    + constructor; assumption.
Qed.

Lemma entry_point_call n c :
  entry_point n = perform (Host c) ->
  trace (run (stub_env 0) (entry_point n) empty_machine).2 = [Ev_host c].
Proof. intros ->. reflexivity. Qed.

Lemma entry_point_receiver n c :
  entry_point n = perform (Host c) -> receiver_of c = slot_of n.
Proof.
  intros Heq. apply entry_point_call in Heq.
  destruct n; cbn in Heq; injection Heq as <-; reflexivity.
Qed.

(** X1: routing by slot holds for all three slots, for arguments of any
    value and over whole sequences: the receivers called are, in order,
    those of the slots invoked, one per invocation. *)
Theorem routing_by_slot env ns m :
  exists m',
    deliver_all env registered ns m = Some m'
    /\ receiver_of <$> host_calls (new_events m m') = slot_of <$> ns
    /\ length (new_events m m') = length ns.
Proof.
  destruct (deliver_all_calls env ns m) as (m' & cs & Hall & Htr & Hcs).
  exists m'. split; [exact Hall|].
  rewrite (new_events_app m m' _ Htr), host_calls_hosts, length_fmap.
  split.
  - clear Hall Htr. induction Hcs as [|n c ns cs Hnc _ IH]; [reflexivity|].
    cbn. rewrite (entry_point_receiver n c Hnc). f_equal. exact IH.
  - symmetry. eapply Forall2_length, Hcs.
Qed.
End TrampolineProperties.

Section ForwardedValues.
Context {dm : data_model}.

Lemma GoUintptr_of_ptr_same_bits p :
  GoUintptr_of_ptr p mod 2 ^ ptr_bits dm = p mod 2 ^ ptr_bits dm.
Proof. apply Z.mod_mod. pose proof ptr_bits_pos. lia. Qed.

Lemma GoUint32_of_uint_range n : is_uint (GoUint32_of_uint n).
Proof. apply Z.mod_pos_bound. reflexivity. Qed.

Lemma GoUint32_of_uint_same_bits n :
  GoUint32_of_uint n mod 2 ^ 32 = n mod 2 ^ 32.
Proof. apply Z.mod_mod. discriminate. Qed.

(** X2: whatever values a trampoline is called with, also outside the
    range of their C types, the one call it makes carries values of the
    Go types of the receiver's signature, and each agrees with the
    native argument on the bits of its width. *)
Theorem forwarded_values_typed env n m :
  exists c,
    new_events m (run env (entry_point n) m).2 = [Ev_host c]
    /\ wf_host_call c /\ same_bits n c.
Proof.
  destruct n; eexists; (split; [apply new_events_app; reflexivity|]);
    cbn [wf_host_call same_bits];
    repeat split;
    first [ apply GoUintptr_of_ptr_range | apply GoUint32_of_uint_range
          | apply GoUintptr_of_ptr_same_bits | apply GoUint32_of_uint_same_bits
          | apply GoInt32_of_enum_same_bits | apply GoInt32_of_enum_range ].
Qed.

(** X3: forwarding loses nothing: two native invocations with arguments
    of their C types that leave the same events are the same
    invocation, slot and arguments. *)
Theorem forwarding_injective env1 env2 m1 m2 n1 n2 :
  wf_native n1 -> wf_native n2 ->
  new_events m1 (run env1 (entry_point n1) m1).2
  = new_events m2 (run env2 (entry_point n2) m2).2 ->
  n1 = n2.
Proof.
  intros H1 H2.
  rewrite (entry_point_observed n1 H1), (entry_point_observed n2 H2), !run_host.
  cbn [snd].
  rewrite (new_events_app m1 _ [Ev_host (observed n1)]) by reflexivity.
  rewrite (new_events_app m2 _ [Ev_host (observed n2)]) by reflexivity.
  intros Heq. apply observed_inj. congruence.
Qed.

(** X4: the context [wrapper_api_Init] registers with the driver comes
    back to Go as the device handle: whichever trampoline the driver
    calls with that context hands the receiver the handle the wrapper
    was called with. *)
Theorem context_reaches_receivers env dev m :
  is_ptr dev ->
  exists ctx,
    Ev_init dev (length (stack m)) (Some registered) ctx
      (run env (wrapper_api_Init dev) m).1
      ∈ new_events m (run env (wrapper_api_Init dev) m).2
    /\ forall env' m' xi xq params numSamples reset eventId tuner,
        (exists hi hq hp hn hr,
            new_events m'
              (run env' (cgoStreamACallback xi xq params numSamples reset ctx) m').2
            = [Ev_host (streamACallback hi hq hp hn hr dev)])
        /\ (exists hi hq hp hn hr,
            new_events m'
              (run env' (cgoStreamBCallback xi xq params numSamples reset ctx) m').2
            = [Ev_host (streamBCallback hi hq hp hn hr dev)])
        /\ (exists e t hp,
            new_events m'
              (run env' (cgoEventCallback eventId tuner params ctx) m').2
            = [Ev_host (eventCallback e t hp dev)]).
Proof.
  intros Hdev. exists (ptr_of_HANDLE dev). split.
  - rewrite run_wrapper_api_Init. cbv zeta. cbn [fst snd].
    erewrite new_events_app by reflexivity.
    unfold init_events. set_solver.
  - intros env' m' xi xq params numSamples reset eventId tuner.
    assert (Hctx : GoUintptr_of_ptr (ptr_of_HANDLE dev) = dev).
    { rewrite (ptr_of_HANDLE_exact dev Hdev).
      apply (GoUintptr_of_ptr_exact dev Hdev). }
    unfold cgoStreamACallback, cgoStreamBCallback, cgoEventCallback.
    rewrite !run_host. cbn [snd]. rewrite Hctx.
    split; [|split]; repeat eexists; apply new_events_app; reflexivity.
Qed.
End ForwardedValues.

(** ** Further properties of the initialisation wrapper *)

Lemma run_bind env {A B : Type} (p : prog A) (f : A -> prog B) m :
  run env (p ≫= f) m = run env (f (run env p m).1) (run env p m).2.
Proof.
  revert m. induction p as [a | X e k IH]; intros m; [reflexivity|].
  cbn. apply IH.
Qed.

Lemma run_ret env {A : Type} (a : A) m : run env (mret a) m = (a, m).
Proof. reflexivity. Qed.

Section InitialisationProperties.
Context {dm : data_model}.

(** X5: the frame of [wrapper_api_Init]: at any depth of the stack of
    automatic storage it returns with the stack as it found it, it
    calls no Go receiver, it reads and writes no memory behind a data
    pointer, and memory after the call is what the driver's
    initialisation left; the trace is only extended. *)
Theorem init_frame env dev m :
  let r := run env (wrapper_api_Init dev) m in
  stack r.2 = stack m
  /\ host_calls (new_events m r.2) = []
  /\ List.filter is_memory_event (new_events m r.2) = []
  /\ memory_free (wrapper_api_Init dev)
  /\ heap r.2
     = (driver_init env dev (Some registered) (ptr_of_HANDLE dev) (heap m)).2
  /\ trace r.2 = trace m ++ new_events m r.2.
Proof.
  cbv zeta. rewrite run_wrapper_api_Init. cbv zeta.
  cbn [fst snd heap stack trace].
  erewrite new_events_app by reflexivity.
  repeat split; try reflexivity; cbn; auto.
Qed.

(** X6: the wrapper keeps nothing between calls and has no guard
    against a second registration: successive calls, for the same or
    for different handles, each build the table anew in the same place,
    each call the driver once with the populated table, in order, and
    return the driver's successive answers. *)
Theorem init_each_independent env devs m :
  let r := run env (init_each devs) m in
  let d := drive_each env devs (heap m) in
  r.1 = d.1
  /\ heap r.2 = d.2
  /\ stack r.2 = stack m
  /\ trace r.2
     = trace m ++ concat (zip_with
         (fun dev err => init_events dev (length (stack m)) (ptr_of_HANDLE dev) err)
         devs d.1).
Proof.
  cbv zeta. revert m. induction devs as [|dev devs IH]; intros m.
  - cbn. rewrite app_nil_r. repeat split; reflexivity.
  - cbn [init_each drive_each]. rewrite run_bind, run_wrapper_api_Init.
    cbv zeta. cbn [fst snd]. rewrite run_bind. cbn [run].
    set (r := driver_init env dev (Some registered) (ptr_of_HANDLE dev) (heap m)).
    set (m1 := {| heap := r.2; stack := stack m;
                  trace := trace m ++ init_events dev (length (stack m))
                                        (ptr_of_HANDLE dev) r.1 |}).
    destruct (IH m1) as (Hcodes & Hheap & Hstack & Htrace).
    rewrite run_ret. cbn [fst snd]. rewrite Hcodes, Hheap, Hstack, Htrace.
    subst m1. cbn [heap stack trace].
    repeat split; try reflexivity.
    cbn [zip_with concat]. rewrite <- app_assoc. reflexivity.
Qed.
End InitialisationProperties.

(** ** The further properties at concrete inputs *)

Lemma forwarding_injective_witness :
  (wf_native (dm:=LP64) (Native_StreamB 0x5000 0x6000 0x3000 128 1 0xABCD)
   /\ new_events empty_machine
        (run (stub_env 0)
           (entry_point (dm:=LP64) (Native_StreamB 0x5000 0x6000 0x3000 128 1 0xABCD))
           empty_machine).2
      = new_events empty_machine
          (run counting_env
             (entry_point (dm:=LP64) (Native_StreamB 0x5000 0x6000 0x3000 128 1 0xABCD))
             empty_machine).2)
  /\ Native_StreamB 0x5000 0x6000 0x3000 128 1 0xABCD
     = Native_StreamB 0x5000 0x6000 0x3000 128 1 0xABCD.
Proof.
  assert (Hwf : wf_native (dm:=LP64)
                  (Native_StreamB 0x5000 0x6000 0x3000 128 1 0xABCD))
    by (repeat split; in_range).
  split; [split; [exact Hwf | reflexivity]|].
  exact (forwarding_injective (dm:=LP64) (stub_env 0) counting_env
           empty_machine empty_machine _ _ Hwf Hwf eq_refl).
Defined.

Lemma context_reaches_receivers_witness :
  is_ptr (dm:=LP64) 0xABCD
  /\ exists ctx e t hp,
      Ev_init 0xABCD 0 (Some registered) ctx 7
        ∈ new_events empty_machine
            (run (stub_env 7) (wrapper_api_Init (dm:=LP64) 0xABCD) empty_machine).2
      /\ new_events empty_machine
           (run (stub_env 7) (cgoEventCallback (dm:=LP64) 1 2 0x4000 ctx)
              empty_machine).2
         = [Ev_host (eventCallback e t hp 0xABCD)].
Proof.
  assert (Hdev : is_ptr (dm:=LP64) 0xABCD) by in_range.
  split; [exact Hdev|].
  destruct (context_reaches_receivers (dm:=LP64) (stub_env 7) 0xABCD
              empty_machine Hdev) as (ctx & Hinit & Hback).
  destruct (Hback (stub_env 7) empty_machine 0 0 0x4000 0 0 1 2)
    as (_ & _ & e & t & hp & Hev).
  exists ctx, e, t, hp. split; [exact Hinit | exact Hev].
Defined.

(** An event code of an enumeration with an unsigned representation
    arrives as the signed integer of the same bits. *)
Example event_code_wraps :
  new_events empty_machine
    (run (stub_env 0) (cgoEventCallback (dm:=LP64) 0xFFFFFFFF 3 0x4000 0xABCD)
       empty_machine).2
  = [Ev_host (eventCallback (-1) 3 0x4000 0xABCD)].
Proof. reflexivity. Qed.

(** Two registrations of the same handle with a driver that counts
    them. *)
Example init_twice :
  (run counting_env (init_each (dm:=LP64) [0xABCD; 0xABCD]) empty_machine).1
  = [1; 2]
  /\ List.filter is_init_event
       (trace (run counting_env (init_each (dm:=LP64) [0xABCD; 0xABCD])
                 empty_machine).2)
     = [ Ev_init 0xABCD 0 (Some registered) 0xABCD 1;
         Ev_init 0xABCD 0 (Some registered) 0xABCD 2 ].
Proof. split; vm_compute; reflexivity. Qed.
